(** * AsyncAuditLogsClient: a shallow embedding of
    [slack_sdk/audit_logs/v1/async_client.py]

    The client assembles query parameters and headers, performs one HTTP
    request over an aiohttp session (borrowed from the caller or created and
    closed for the call) and wraps the answer in an [AuditLogsResponse].

    Python dictionaries are finite maps ([gmap]) keyed by strings (the
    order of their entries, on which nothing below depends, is not kept); the
    effects of the coroutine (the sessions that exist and whether they are
    closed, the calls made on the logger, the requests put on the wire) are
    threaded through a state-and-exception monad [io].  What the client calls
    but does not define (the [json] codec, the network, the helpers of
    [internal_utils]) are the variables of the section. *)

From Stdlib Require Import Ascii.
From stdpp Require Import gmap strings list fin_maps pretty.

Local Open Scope string_scope.
Local Open Scope list_scope.
Local Open Scope Z_scope.

(** ** Python values *)

(** The values that travel in query parameters, request bodies and decoded
    JSON: [None], booleans, integers, strings, lists and string-keyed
    dictionaries. *)
#[warnings="-register-all"]
Inductive pyval : Type :=
  | PyNone
  | PyBool (b : bool)
  | PyInt (z : Z)
  | PyStr (s : string)
  | PyList (l : list pyval)
  | PyDict (d : gmap string pyval).

(** [v is None] is decidable. *)
#[global] Instance pyval_none_dec (v : pyval) : Decision (v = PyNone).
Proof. destruct v; (by left) || (by right). Defined.

(** An [Optional[int]] / [Optional[str]] argument as a Python value. *)
Definition of_opt_int (o : option Z) : pyval := from_option PyInt PyNone o.
Definition of_opt_str (o : option string) : pyval := from_option PyStr PyNone o.

(** [str.lower()] on the ASCII letters; the other bytes of the (UTF-8)
    string are kept.  Comparing the result with the ASCII word
    ["authorization"] gives what Python gives: no character outside ASCII
    lowers to one of its letters. *)
Definition ascii_lower (c : ascii) : ascii :=
  let n := nat_of_ascii c in
  if ((65 <=? n) && (n <=? 90))%nat then ascii_of_nat (n + 32) else c.

Fixpoint lower (s : string) : string :=
  match s with
  | EmptyString => EmptyString
  | String c s' => String (ascii_lower c) (lower s')
  end.

(** ** The objects the client works with *)

(** [ssl.SSLContext] and [aiohttp.BasicAuth] are passed through untouched. *)
Record SSLContext := { ssl_context_name : string }.
Record BasicAuth := { login : string; password : string }.

(** [logging.Logger]: only its [level] is read.  [logging.DEBUG] is 10. *)
Record Logger := { level : Z }.
Definition DEBUG : Z := 10.

(** An [aiohttp.ClientSession]: whether it is closed, and what it was
    configured with. *)
Record ClientSession := {
  closed : bool;
  session_timeout : Z;
  session_auth : option BasicAuth;
  session_trust_env : bool;
}.

(** Sessions live in a store and are named by their position in it. *)
Definition session_ref := nat.

(** The exceptions of the libraries underneath. *)
Inductive py_exception : Type :=
  | ContentTypeError
  | JSONDecodeError (msg : string)
  | UnicodeDecodeError (msg : string)
  | ClientError (msg : string)
  | TimeoutError.

(** The [aiohttp.ClientResponse]: status, headers, and what awaiting
    [res.text()] gives (the text, or an exception). *)
Record ClientResponse := {
  status : Z;
  res_headers : gmap string string;
  res_text : py_exception + string;
}.

(** What a call may raise: a library exception, untouched, or the
    [SlackApiError(message, response)] of [slack_sdk.errors]. *)
Inductive exn : Type :=
  | LibraryError (e : py_exception)
  | SlackApiError (message : string) (response : ClientResponse).

(** [session.request(http_verb, url, headers=..., params=..., data=...,
    ssl=..., proxy=...)] as the transport sees it. *)
Record http_request := {
  req_session : session_ref;
  req_verb : string;
  req_url : string;
  req_headers : gmap string string;
  req_params : option (gmap string pyval);
  req_data : option string;
  req_ssl : option SSLContext;
  req_proxy : option string;
}.

(** The fields of the client, as [__init__] stores them. *)
Record AsyncAuditLogsClient := {
  token : string;
  timeout : Z;
  ssl : option SSLContext;
  proxy : option string;
  base_url : string;
  session : option session_ref;
  trust_env_in_session : bool;
  auth : option BasicAuth;
  default_headers : gmap string string;
  logger : Logger;
}.

Definition BASE_URL : string := "https://api.slack.com/audit/v1/".

(** The response envelope.  [raw_body] is what [_perform_http_request]
    hands over: the text read, or the empty dictionary it starts from. *)
Record AuditLogsResponse := {
  url : string;
  status_code : Z;
  raw_body : pyval;
  body : gmap string pyval;
  headers : gmap string string;
}.

(** ** Logging *)

(** A message is kept by the values its f-string interpolates. *)
Inductive log_message : Type :=
  | SendingRequest (url : string) (params : option (gmap string pyval))
      (body : option string) (headers : gmap string string)
  | NoResponseData (url : string)
  | ReceivedResponse (resp : AuditLogsResponse).

Record log_record := { levelno : Z; message : log_message }.

(** ** The state and the monad *)

Record world := {
  heap : list ClientSession;   (* every session ever created *)
  log : list log_record;       (* the calls made on the logger, in order *)
  wire : list http_request;    (* the requests issued, in order *)
}.

Inductive outcome (A : Type) : Type :=
  | Return (a : A)
  | Raise (e : exn).
Arguments Return {A} a.
Arguments Raise {A} e.

Definition io (A : Type) : Type := world → outcome A * world.

#[global] Instance io_ret : MRet io := λ A a w, (Return a, w).
#[global] Instance io_bind : MBind io := λ A B f m w,
  match m w with
  | (Return a, w') => f a w'
  | (Raise e, w') => (Raise e, w')
  end.

#[global] Instance io_fmap : FMap io := λ A B f m w,
  match m w with
  | (Return a, w') => (Return (f a), w')
  | (Raise e, w') => (Raise e, w')
  end.

Definition raise {A} (e : exn) : io A := λ w, (Raise e, w).

(** [try: m  except Exception as e: handler e] *)
Definition try_except {A} (m : io A) (handler : exn → io A) : io A := λ w,
  match m w with
  | (Return a, w') => (Return a, w')
  | (Raise e, w') => handler e w'
  end.

(** [try: m  finally: cleanup]: the cleanup runs on both exits; the
    outcome of [m] stands unless the cleanup itself raises. *)
Definition try_finally {A} (m : io A) (cleanup : io unit) : io A := λ w,
  let '(r, w') := m w in
  match cleanup w' with
  | (Return _, w'') => (r, w'')
  | (Raise e, w'') => (Raise e, w'')
  end.

(** [self.logger.debug(msg)] *)
Definition logger_debug (msg : log_message) : io unit := λ w,
  (Return (),
   {| heap := heap w;
      log := log w ++ [{| levelno := DEBUG; message := msg |}];
      wire := wire w |}).

(** [aiohttp.ClientSession(timeout=..., auth=..., trust_env=...)]: a new,
    open session, stored after the existing ones. *)
Definition ClientSession_new (t : Z) (a : option BasicAuth) (trust_env : bool)
  : io session_ref := λ w,
  (Return (length (heap w)),
   {| heap := heap w ++ [{| closed := false; session_timeout := t;
                            session_auth := a; session_trust_env := trust_env |}];
      log := log w;
      wire := wire w |}).

Definition mark_closed (s : ClientSession) : ClientSession :=
  {| closed := true; session_timeout := session_timeout s;
     session_auth := session_auth s; session_trust_env := session_trust_env s |}.

(** [await session.close()] *)
Definition ClientSession_close (r : session_ref) : io unit := λ w,
  (Return (),
   {| heap := alter mark_closed r (heap w); log := log w; wire := wire w |}).

(** [self.session and not self.session.closed], read in a store.  A
    reference the client holds names a stored session; one that names
    none counts as closed. *)
Definition running (h : list ClientSession) (o : option session_ref) : bool :=
  match o with
  | Some r => from_option (λ s, negb (closed s)) false (h !! r)
  | None => false
  end.

Definition session_running (o : option session_ref) : io bool := λ w,
  (Return (running (heap w) o), w).

(** [await res.text()] *)
Definition text (res : ClientResponse) : io string := λ w,
  (match res_text res with
   | inr s => Return s
   | inl e => Raise (LibraryError e)
   end, w).

(** ** A concrete runtime for the examples

    The theorems below hold for every JSON codec, every transport and
    every header builder.  Their examples run in this one: a printer and a
    reader for the JSON of the values above (integers only, and of the
    escapes only the quote and the backslash), transports that give one
    fixed answer, and the header builder as the spec words it. *)

Module Sample.

Definition dquote : ascii := ascii_of_nat 34.
Definition backslash : ascii := ascii_of_nat 92.
Definition q : string := String dquote "".

Fixpoint escape (s : string) : string :=
  match s with
  | EmptyString => EmptyString
  | String c s' =>
      if decide (c = dquote ∨ c = backslash)
      then String backslash (String c (escape s'))
      else String c (escape s')
  end.

Definition quoted (s : string) : string := q +:+ escape s +:+ q.

Definition join (l : list string) : string :=
  foldr (λ x acc, if decide (acc = "") then x else x +:+ ", " +:+ acc) "" l.

(** Keys come out in the order of the finite map, not of insertion. *)
Fixpoint dumps (v : pyval) : string :=
  match v with
  | PyNone => "null"
  | PyBool true => "true"
  | PyBool false => "false"
  | PyInt z => pretty z
  | PyStr s => quoted s
  | PyList l => "[" +:+ join (dumps <$> l) +:+ "]"
  | PyDict d =>
      "{" +:+ join (map_fold (λ k x acc, (quoted k +:+ ": " +:+ dumps x) :: acc) [] d)
          +:+ "}"
  end.

Definition json_dumps (d : gmap string pyval) : string := dumps (PyDict d).

Definition is_ws (c : ascii) : bool :=
  bool_decide (nat_of_ascii c ∈ [32; 9; 10; 13]%nat).

Fixpoint skip_ws (s : string) : string :=
  match s with
  | String c r => if is_ws c then skip_ws r else s
  | EmptyString => s
  end.

Fixpoint strip_prefix (p s : string) : option string :=
  match p, s with
  | EmptyString, _ => Some s
  | String a p', String b s' => if decide (a = b) then strip_prefix p' s' else None
  | String _ _, EmptyString => None
  end.

(** The characters of a string literal, after its opening quote. *)
Fixpoint read_string (s : string) : option (string * string) :=
  match s with
  | EmptyString => None
  | String c r =>
      if decide (c = dquote) then Some ("", r)
      else if decide (c = backslash) then
        match r with
        | String e r' =>
            if decide (e = dquote ∨ e = backslash)
            then '(t, rest) ← read_string r'; Some (String e t, rest)
            else None
        | EmptyString => None
        end
      else '(t, rest) ← read_string r; Some (String c t, rest)
  end.

Definition digit (c : ascii) : option Z :=
  let n := nat_of_ascii c in
  if ((48 <=? n) && (n <=? 57))%nat then Some (Z.of_nat (n - 48)) else None.

Fixpoint read_digits (acc : Z) (s : string) : Z * string :=
  match s with
  | String c r =>
      match digit c with
      | Some d => read_digits (10 * acc + d) r
      | None => (acc, s)
      end
  | EmptyString => (acc, s)
  end.

(** An integer literal; a fraction or an exponent after it is refused. *)
Definition read_int (s : string) : option (Z * string) :=
  let '(sign, s) := match strip_prefix "-" s with
                    | Some r => (-1, r)
                    | None => (1, s)
                    end in
  match s with
  | String c r =>
      d ← digit c;
      let '(n, rest) := if decide (d = 0) then (0, r) else read_digits d r in
      match rest with
      | String c' _ =>
          if bool_decide (c' ∈ ["."; "e"; "E"]%char) then None
          else if digit c' is Some _ then None
          else Some (sign * n, rest)
      | EmptyString => Some (sign * n, rest)
      end
  | EmptyString => None
  end.

Fixpoint read_value (fuel : nat) (s : string) : option (pyval * string) :=
  match fuel with
  | O => None
  | S fuel =>
      match skip_ws s with
      | EmptyString => None
      | String c r as s =>
          if decide (c = dquote) then
            '(t, rest) ← read_string r; Some (PyStr t, rest)
          else if decide (c = "["%char) then
            match skip_ws r with
            | String "]" rest => Some (PyList [], rest)
            | _ => '(l, rest) ← read_items fuel r; Some (PyList l, rest)
            end
          else if decide (c = "{"%char) then
            match skip_ws r with
            | String "}" rest => Some (PyDict ∅, rest)
            | _ => '(d, rest) ← read_members fuel r; Some (PyDict d, rest)
            end
          else if decide (c = "n"%char) then
            rest ← strip_prefix "null" s; Some (PyNone, rest)
          else if decide (c = "t"%char) then
            rest ← strip_prefix "true" s; Some (PyBool true, rest)
          else if decide (c = "f"%char) then
            rest ← strip_prefix "false" s; Some (PyBool false, rest)
          else '(n, rest) ← read_int s; Some (PyInt n, rest)
      end
  end
with read_items (fuel : nat) (s : string) : option (list pyval * string) :=
  match fuel with
  | O => None
  | S fuel =>
      '(v, r) ← read_value fuel s;
      match skip_ws r with
      | String "," rest => '(l, rest') ← read_items fuel rest; Some (v :: l, rest')
      | String "]" rest => Some ([v], rest)
      | _ => None
      end
  end
with read_members (fuel : nat) (s : string) : option (gmap string pyval * string) :=
  match fuel with
  | O => None
  | S fuel =>
      r ← strip_prefix q (skip_ws s);
      '(k, r) ← read_string r;
      r ← strip_prefix ":" (skip_ws r);
      '(v, r) ← read_value fuel r;
      match skip_ws r with
      | String "," rest =>
          '(d, rest') ← read_members fuel rest; Some (d ∪ {[k := v]}, rest')
      | String "}" rest => Some ({[k := v]}, rest)
      | _ => None
      end
  end.

Definition json_loads (s : string) : option pyval :=
  '(v, rest) ← read_value (S (String.length s)) s;
  if decide (skip_ws rest = "") then Some v else None.

(** A server that gives every request the same status, headers and way of
    reading the body; and a network that cannot be reached. *)
Definition respond (code : Z) (h : gmap string string) (t : py_exception + string)
  : http_request → py_exception + ClientResponse :=
  λ _, inr {| status := code; res_headers := h; res_text := t |}.

Definition unreachable : http_request → py_exception + ClientResponse :=
  λ _, inl (ClientError "Cannot connect to host").

(** Modelled from the spec: [_build_request_headers] of [internal_utils]
    is not among the sources.  Per-call headers take precedence over the
    defaults, and [Authorization: Bearer <token>] is always present
    (spec 4.2). *)
Definition _build_request_headers (token : string)
    (default_headers : gmap string string)
    (additional_headers : option (gmap string string)) : gmap string string :=
  <["Authorization" := "Bearer " +:+ token]>
    (default ∅ additional_headers ∪ default_headers).

Definition debug_logger : Logger := {| level := 10 |}.
Definition warning_logger : Logger := {| level := 30 |}.

(** A client with no session of its own, and one that borrows session 0. *)
Definition client (lg : Logger) (s : option session_ref) : AsyncAuditLogsClient :=
  {| token := "xoxp-1234"; timeout := 30; ssl := None; proxy := None;
     base_url := BASE_URL; session := s; trust_env_in_session := false;
     auth := None;
     default_headers := {[ "User-Agent" := "Python/3.9 slackclient/3.0" ]};
     logger := lg |}.

Definition a_session (c : bool) : ClientSession :=
  {| closed := c; session_timeout := 300; session_auth := None;
     session_trust_env := true |}.

Definition empty_world : world := {| heap := []; log := []; wire := [] |}.
Definition world_with (s : ClientSession) : world :=
  {| heap := [s]; log := []; wire := [] |}.

End Sample.

Section client.

(** [json.dumps] on a dictionary of the values above, all of which it
    serialises, and [json.loads] ([None] where it raises). *)
Variable json_dumps : gmap string pyval → string.
Variable json_loads : string → option pyval.

(** The network: what awaiting [session.request(...)] gives for a
    request, a response or an exception. *)
Variable transport : http_request → py_exception + ClientResponse.

(** Modelled from the spec: [internal_utils] is not among the sources.
    [_build_request_headers(token, default_headers, additional_headers)]
    (spec 4.2) and [get_user_agent(prefix, suffix)] are left open. *)
Variable _build_request_headers :
  string → gmap string string → option (gmap string string) → gmap string string.
Variable get_user_agent : option string → option string → string.

(** [logging.getLogger(__name__)], the logger of the module. *)
Variable module_logger : Logger.

(** Modelled from the spec: the module [response] is not among the
    sources.  The envelope is built from URL, status code, raw body and
    headers (spec 4.3, step 6); its parsed body is the decoded mapping,
    empty if the raw body is not parseable as JSON (spec 3). *)
Definition parsed_body (raw : pyval) : gmap string pyval :=
  match raw with
  | PyStr s => match json_loads s with Some (PyDict d) => d | _ => ∅ end
  | _ => ∅
  end.

Definition AuditLogsResponse_new (u : string) (code : Z) (raw : pyval)
    (h : gmap string string) : AuditLogsResponse :=
  {| url := u; status_code := code; raw_body := raw;
     body := parsed_body raw; headers := h |}.

(** Modelled from the spec: [_debug_log_response(logger, resp)] of
    [internal_utils] logs the envelope at debug level (spec 4.3, step 6). *)
Definition _debug_log_response (resp : AuditLogsResponse) : io unit :=
  logger_debug (ReceivedResponse resp).

(** [async with session.request(http_verb, url, **request_kwargs) as res] *)
Definition session_request (req : http_request) : io ClientResponse := λ w,
  (match transport req with
   | inr res => Return res
   | inl e => Raise (LibraryError e)
   end,
   {| heap := heap w; log := log w; wire := wire w ++ [req] |}).

(** [__init__] *)
Definition __init__ (token : string) (timeout : Z) (ssl : option SSLContext)
    (proxy : option string) (base_url : string) (session : option session_ref)
    (trust_env_in_session : bool) (auth : option BasicAuth)
    (default_headers : option (gmap string string))
    (user_agent_prefix user_agent_suffix : option string)
    (logger : option Logger) : AsyncAuditLogsClient :=
  {| token := token; timeout := timeout; ssl := ssl; proxy := proxy;
     base_url := base_url; session := session;
     trust_env_in_session := trust_env_in_session; auth := auth;
     default_headers :=
       <["User-Agent" := get_user_agent user_agent_prefix user_agent_suffix]>
         (default ∅ default_headers);
     logger := default module_logger logger |}.

(** [{k: "(redacted)" if k.lower() == "authorization" else v
     for k, v in headers.items()}] *)
Definition headers_for_logging (headers : gmap string string)
  : gmap string string :=
  map_imap (λ k v,
    Some (if decide (lower k = "authorization") then "(redacted)" else v))
    headers.

(** [_perform_http_request] *)
Definition _perform_http_request (self : AsyncAuditLogsClient)
    (http_verb url : string)
    (query_params body_params : option (gmap string pyval))
    (headers : gmap string string) : io AuditLogsResponse :=
  let body_params := json_dumps <$> body_params in
  let headers := <["Content-Type" := "application/json;charset=utf-8"]> headers in
  (if bool_decide (level (logger self) ≤ DEBUG)
   then logger_debug
          (SendingRequest url query_params body_params
             (headers_for_logging headers))
   else (mret () : io unit)) ;;
  use_running_session ← session_running (session self);
  session ← match session self, use_running_session with
            | Some r, true => (mret r : io session_ref)
            | _, _ => ClientSession_new (timeout self) (auth self)
                        (trust_env_in_session self)
            end;
  try_finally
    (res ← session_request
             {| req_session := session; req_verb := http_verb;
                req_url := url; req_headers := headers;
                req_params := query_params; req_data := body_params;
                req_ssl := ssl self; req_proxy := proxy self |};
     (* response_body = {} unless the read below assigns it *)
     response_body ← try_except (PyStr <$> text res)
       (λ e, match e with
             | LibraryError ContentTypeError =>
                 logger_debug (NoResponseData url) ;;
                 (mret (PyDict ∅) : io pyval)
             | LibraryError (JSONDecodeError msg) =>
                 raise (SlackApiError
                          ("Failed to parse the response body: " +:+ msg) res)
             | _ => raise e
             end);
     let resp :=
       AuditLogsResponse_new url (status res) response_body (res_headers res) in
     _debug_log_response resp ;;
     (mret resp : io AuditLogsResponse))
    (if negb use_running_session then ClientSession_close session
     else (mret () : io unit)).

(** [api_call] *)
Definition api_call (self : AsyncAuditLogsClient) (http_verb path : string)
    (query_params body_params : option (gmap string pyval))
    (headers : option (gmap string string)) : io AuditLogsResponse :=
  let url := base_url self +:+ path in
  _perform_http_request self http_verb url query_params body_params
    (_build_request_headers (token self) (default_headers self) headers).

(** [schemas] and [actions] *)
Definition schemas (self : AsyncAuditLogsClient)
    (query_params : option (gmap string pyval))
    (headers : option (gmap string string)) : io AuditLogsResponse :=
  api_call self "GET" "schemas" query_params None headers.

Definition actions (self : AsyncAuditLogsClient)
    (query_params : option (gmap string pyval))
    (headers : option (gmap string string)) : io AuditLogsResponse :=
  api_call self "GET" "actions" query_params None headers.

(** The query parameters [logs] assembles: the literal of the six named
    filters, [update] with the additional ones, then the comprehension
    that keeps the entries whose value is not [None]. *)
Definition logs_query_params (latest oldest limit : option Z)
    (action actor entity : option string)
    (additional_query_params : option (gmap string pyval))
  : gmap string pyval :=
  let query_params : gmap string pyval :=
    {[ "latest" := of_opt_int latest;
       "oldest" := of_opt_int oldest;
       "limit" := of_opt_int limit;
       "action" := of_opt_str action;
       "actor" := of_opt_str actor;
       "entity" := of_opt_str entity ]} in
  let query_params :=
    match additional_query_params with
    | Some additional => additional ∪ query_params
    | None => query_params
    end in
  filter (λ kv, kv.2 ≠ PyNone) query_params.

(** [logs] *)
Definition logs (self : AsyncAuditLogsClient) (latest oldest limit : option Z)
    (action actor entity : option string)
    (additional_query_params : option (gmap string pyval))
    (headers : option (gmap string string)) : io AuditLogsResponse :=
  api_call self "GET" "logs"
    (Some (logs_query_params latest oldest limit action actor entity
             additional_query_params))
    None headers.


(** ** The query parameters of [logs], in the words of the spec *)

Definition named_filter_keys : list string :=
  ["latest"; "oldest"; "limit"; "action"; "actor"; "entity"].

(** The value of the named filter [k], when [k] names one and its
    argument is not null. *)
Definition named_filter (latest oldest limit : option Z)
    (action actor entity : option string) (k : string) : option pyval :=
  if decide (k = "latest") then PyInt <$> latest
  else if decide (k = "oldest") then PyInt <$> oldest
  else if decide (k = "limit") then PyInt <$> limit
  else if decide (k = "action") then PyStr <$> action
  else if decide (k = "actor") then PyStr <$> actor
  else if decide (k = "entity") then PyStr <$> entity
  else None.

(** What is transmitted under [k]: the additional parameter of that key
    when there is one (it replaces a named filter), else the named filter;
    and nothing where that value is null. *)
Definition transmitted (latest oldest limit : option Z)
    (action actor entity : option string)
    (additional_query_params : option (gmap string pyval)) (k : string)
  : option pyval :=
  match additional_query_params ≫= (.!! k) with
  | Some v => if decide (v = PyNone) then None else Some v
  | None => named_filter latest oldest limit action actor entity k
  end.

(** ** One call of [_perform_http_request], in closed form *)

Definition CONTENT_TYPE_JSON : string := "application/json;charset=utf-8".

(** The session the request goes out on: the client's own when it is
    running, else the one created at the end of the store. *)
Definition session_used (self : AsyncAuditLogsClient) (w : world) : session_ref :=
  match session self with
  | Some r => if running (heap w) (Some r) then r else length (heap w)
  | None => length (heap w)
  end.

Definition request_sent (self : AsyncAuditLogsClient) (http_verb url : string)
    (query_params body_params : option (gmap string pyval))
    (headers : gmap string string) (w : world) : http_request :=
  {| req_session := session_used self w; req_verb := http_verb;
     req_url := url;
     req_headers := <["Content-Type" := CONTENT_TYPE_JSON]> headers;
     req_params := query_params; req_data := json_dumps <$> body_params;
     req_ssl := ssl self; req_proxy := proxy self |}.

Definition debug_record (m : log_message) : log_record :=
  {| levelno := DEBUG; message := m |}.

Definition sending_log (self : AsyncAuditLogsClient) (url : string)
    (query_params body_params : option (gmap string pyval))
    (headers : gmap string string) : list log_record :=
  if bool_decide (level (logger self) ≤ DEBUG)
  then [debug_record
          (SendingRequest url query_params (json_dumps <$> body_params)
             (headers_for_logging (<["Content-Type" := CONTENT_TYPE_JSON]> headers)))]
  else [].

(** What the call makes of the transport's answer, and what it logs on
    the way. *)
Definition answer (url : string) (a : py_exception + ClientResponse)
  : outcome AuditLogsResponse * list log_record :=
  match a with
  | inl e => (Raise (LibraryError e), [])
  | inr res =>
      match res_text res with
      | inr s =>
          let resp :=
            AuditLogsResponse_new url (status res) (PyStr s) (res_headers res) in
          (Return resp, [debug_record (ReceivedResponse resp)])
      | inl ContentTypeError =>
          let resp :=
            AuditLogsResponse_new url (status res) (PyDict ∅) (res_headers res) in
          (Return resp,
           [debug_record (NoResponseData url); debug_record (ReceivedResponse resp)])
      | inl (JSONDecodeError msg) =>
          (Raise (SlackApiError ("Failed to parse the response body: " +:+ msg) res),
           [])
      | inl e => (Raise (LibraryError e), [])
      end
  end.

Definition new_session (self : AsyncAuditLogsClient) (c : bool) : ClientSession :=
  {| closed := c; session_timeout := timeout self; session_auth := auth self;
     session_trust_env := trust_env_in_session self |}.

Definition heap_after (self : AsyncAuditLogsClient) (w : world) : list ClientSession :=
  if running (heap w) (session self) then heap w
  else heap w ++ [new_session self true].

(** The value a header is logged with. *)
Definition redact (k v : string) : string :=
  if decide (lower k = "authorization") then "(redacted)" else v.

(** The records that log a request. *)
Definition is_sending_request (r : log_record) : bool :=
  match message r with
  | SendingRequest _ _ _ _ => true
  | _ => false
  end.

(** * Properties *)

Lemma alter_last {A} (f : A → A) (l : list A) (x : A) :
  alter f (length l) (l ++ [x]) = l ++ [f x].
Proof. induction l as [|y l IH]; simpl; [done | by f_equal]. Qed.

Lemma perform_http_request_run self http_verb url query_params body_params headers w :
  _perform_http_request self http_verb url query_params body_params headers w =
  let req := request_sent self http_verb url query_params body_params headers w in
  ((answer url (transport req)).1,
   {| heap := heap_after self w;
      log := log w ++ sending_log self url query_params body_params headers
               ++ (answer url (transport req)).2;
      wire := wire w ++ [req] |}).
Proof.
  unfold _perform_http_request, request_sent, session_used, heap_after,
    sending_log, answer, CONTENT_TYPE_JSON, new_session.
  unfold session_running, session_request, try_finally, try_except,
    _debug_log_response, logger_debug, ClientSession_new, ClientSession_close,
    text, raise.
  unfold mbind, io_bind, mret, io_ret, fmap at 1, io_fmap.
  destruct w as [h l wi]; simpl.
  destruct (bool_decide (level (logger self) ≤ DEBUG)); simpl;
    destruct (session self) as [r|] eqn:Hs; simpl;
    try destruct (from_option (λ s, negb (closed s)) false (h !! r)) eqn:Hr; simpl;
    match goal with |- context [transport ?q] => destruct (transport q) as [e|res] end;
    simpl; rewrite ?alter_last, ?app_nil_r; try done;
    destruct (res_text res) as [[]|]; simpl;
    rewrite ?alter_last, ?app_nil_r, <-?app_assoc; done.
Qed.

(** The requests of a call: one more on the wire, the one of
    [request_sent]. *)
Lemma perform_http_request_wire self http_verb url query_params body_params headers w :
  wire (_perform_http_request self http_verb url query_params body_params headers w).2
  = wire w ++ [request_sent self http_verb url query_params body_params headers w].
Proof. by rewrite perform_http_request_run. Qed.

(** *** The query parameters of [logs] *)

Lemma named_literal_lookup latest oldest limit action actor entity k :
  ({[ "latest" := of_opt_int latest; "oldest" := of_opt_int oldest;
      "limit" := of_opt_int limit; "action" := of_opt_str action;
      "actor" := of_opt_str actor; "entity" := of_opt_str entity ]}
     : gmap string pyval) !! k
  ≫= (λ v, if decide (v = PyNone) then None else Some v)
  = named_filter latest oldest limit action actor entity k.
Proof.
  unfold named_filter.
  repeat case_decide; simplify_eq.
  all: repeat (rewrite lookup_insert_ne by done).
  all: rewrite ?lookup_insert_eq, ?lookup_singleton_eq, ?lookup_singleton_ne by done.
  all: simpl; try done.
  - by destruct latest.
  - by destruct oldest.
  - by destruct limit.
  - by destruct action.
  - by destruct actor.
  - by destruct entity.
Qed.

Lemma filter_not_none_lookup (m : gmap string pyval) k :
  filter (λ kv, kv.2 ≠ PyNone) m !! k
  = m !! k ≫= (λ v, if decide (v = PyNone) then None else Some v).
Proof.
  rewrite map_lookup_filter. destruct (m !! k) as [v|]; simpl; [|done].
  destruct (decide (v = PyNone)) as [->|Hv]; simpl; [done|].
  by rewrite option_guard_True.
Qed.

Lemma logs_query_params_lookup latest oldest limit action actor entity additional k :
  logs_query_params latest oldest limit action actor entity additional !! k
  = transmitted latest oldest limit action actor entity additional k.
Proof.
  unfold logs_query_params, transmitted.
  rewrite filter_not_none_lookup.
  destruct additional as [a|]; simpl.
  - rewrite lookup_union. destruct (a !! k) as [v|] eqn:Ha; simpl.
    + by rewrite union_Some_l.
    + rewrite (left_id_L None (∪)). apply named_literal_lookup.
  - apply named_literal_lookup.
Qed.

(** C1.  [logs] passes [api_call], and through it the transport, the map
    [logs_query_params]: under every key it holds the additional parameter
    of that key when there is one (replacing a named filter of the same
    name), else the named filter of that name, and holds nothing where
    that value is null.  So the map consists of exactly the non-null
    named filters that no additional parameter replaces and the non-null
    additional parameters, and no null value is transmitted. *)
Theorem logs_query_params_exact self latest oldest limit action actor entity
    additional_query_params headers w :
  let query_params :=
    logs_query_params latest oldest limit action actor entity
      additional_query_params in
  let additional k := additional_query_params ≫= (.!! k) in
  let named := named_filter latest oldest limit action actor entity in
  logs self latest oldest limit action actor entity additional_query_params headers
    = api_call self "GET" "logs" (Some query_params) None headers
  ∧ (∃ req,
       wire (logs self latest oldest limit action actor entity
               additional_query_params headers w).2 = wire w ++ [req]
       ∧ req_params req = Some query_params)
  ∧ (∀ k, query_params !! k
          = transmitted latest oldest limit action actor entity
              additional_query_params k)
  ∧ (∀ k v, query_params !! k = Some v ↔
       v ≠ PyNone
       ∧ (additional k = Some v ∨ (additional k = None ∧ named k = Some v))).
Proof.
  intros query_params additional named. split; [done|]. split; [|split].
  - unfold logs, api_call. rewrite perform_http_request_wire. eauto.
  - intros k. apply logs_query_params_lookup.
  - intros k v. unfold query_params. rewrite logs_query_params_lookup.
    unfold transmitted. fold (additional k). fold named.
    destruct (additional k) as [u|] eqn:Hu.
    + case_decide as Hn.
      * split; [done|]. intros [Hv [?|[? _]]]; simplify_eq.
      * split.
        -- intros; simplify_eq. eauto.
        -- intros [_ [?|[? _]]]; by simplify_eq.
    + split.
      * intros Hk. split; [|by right].
        intros ->. revert Hk. unfold named, named_filter.
        repeat case_decide; try done;
          by (destruct latest, oldest, limit, action, actor, entity).
      * intros [_ [?|[_ ?]]]; by simplify_eq.
Qed.

(** C10.  When [additional_query_params] maps one of the six named keys
    to null, that key is absent from the map [logs] transmits, whatever
    the named argument was: the update comes before the filter. *)
Theorem logs_null_additional_cancels_named self latest oldest limit action actor
    entity (additional : gmap string pyval) headers w k :
  k ∈ named_filter_keys →
  additional !! k = Some PyNone →
  ∃ req query_params,
    wire (logs self latest oldest limit action actor entity (Some additional)
            headers w).2 = wire w ++ [req]
    ∧ req_params req = Some query_params
    ∧ query_params !! k = None.
Proof.
  intros _ Hk. unfold logs, api_call. rewrite perform_http_request_wire.
  eexists _, _. split; [done|]. split; [done|].
  rewrite logs_query_params_lookup. unfold transmitted. simpl.
  by rewrite Hk.
Qed.

(** The request [api_call] issues. *)
Lemma api_call_wire self http_verb path query_params body_params headers w :
  wire (api_call self http_verb path query_params body_params headers w).2
  = wire w ++ [request_sent self http_verb (base_url self +:+ path) query_params
                 body_params
                 (_build_request_headers (token self) (default_headers self) headers)
                 w].
Proof. unfold api_call. apply perform_http_request_wire. Qed.

(** C9.  [schemas] and [actions] are [api_call] on the caller's
    [query_params], and the request that reaches the transport carries
    that very map: no entry is dropped, a null-valued one included. *)
Theorem schemas_actions_forward_query_params self query_params headers w :
  (schemas self query_params headers
     = api_call self "GET" "schemas" query_params None headers
   ∧ ∃ req, wire (schemas self query_params headers w).2 = wire w ++ [req]
       ∧ req_verb req = "GET"
       ∧ req_url req = base_url self +:+ "schemas"
       ∧ req_params req = query_params
       ∧ ∀ m k, query_params = Some m → m !! k = Some PyNone →
           ∃ m', req_params req = Some m' ∧ m' !! k = Some PyNone)
  ∧ (actions self query_params headers
       = api_call self "GET" "actions" query_params None headers
     ∧ ∃ req, wire (actions self query_params headers w).2 = wire w ++ [req]
         ∧ req_verb req = "GET"
         ∧ req_url req = base_url self +:+ "actions"
         ∧ req_params req = query_params
         ∧ ∀ m k, query_params = Some m → m !! k = Some PyNone →
             ∃ m', req_params req = Some m' ∧ m' !! k = Some PyNone).
Proof.
  split; (split; [done|]); unfold schemas, actions; rewrite api_call_wire;
    eexists; (split; [done|]); simpl; repeat (split; [done|]); eauto.
Qed.

(** *** The request and the envelope *)

(** C7.  [api_call] puts one request on the wire, for the URL
    [base_url + path].  An envelope it returns carries that URL, the
    status code and the headers of the response, and the body text as read;
    and whenever the body is read as text the call returns that envelope,
    whatever the text: where it does not decode as JSON the raw body is the
    text still, and only the parsed body is empty. *)
Theorem api_call_url_and_envelope self http_verb path query_params body_params
    additional_headers w :
  let run := api_call self http_verb path query_params body_params additional_headers w in
  let target := base_url self +:+ path in
  ∃ req,
    wire run.2 = wire w ++ [req]
    ∧ req_url req = target
    ∧ (∀ resp, run.1 = Return resp →
         url resp = target
         ∧ ∃ res, transport req = inr res
             ∧ status_code resp = status res
             ∧ headers resp = res_headers res
             ∧ ∀ s, res_text res = inr s → raw_body resp = PyStr s)
    ∧ (∀ res s, transport req = inr res → res_text res = inr s →
         ∃ resp, run.1 = Return resp
           ∧ url resp = target
           ∧ status_code resp = status res
           ∧ raw_body resp = PyStr s
           ∧ headers resp = res_headers res
           ∧ (json_loads s = None → body resp = ∅)).
Proof.
  intros run target. subst run. unfold api_call.
  rewrite perform_http_request_run. fold target. simpl.
  eexists. split; [done|]. split; [reflexivity|].
  split.
  - intros resp. unfold answer.
    match goal with |- context [transport ?q] => destruct (transport q) as [e|res] end;
      [done|].
    destruct (res_text res) as [[]|t] eqn:Ht; simpl; intros; simplify_eq.
    + split; [done|]. exists res. repeat split; try done. intros; congruence.
    + split; [done|]. exists res. repeat split; try done.
      intros; simpl; congruence.
  - intros res s Hres Hs. unfold answer. rewrite Hres, Hs. simpl.
    eexists. split; [done|]. simpl. repeat split; try done.
    intros Hj. unfold parsed_body. by rewrite Hj.
Qed.

(** C4 (as the code has it).  A body that is supplied goes out serialised
    by [json.dumps], none goes out where none is supplied; the header
    [Content-Type: application/json;charset=utf-8] is on every request,
    with or without a body. *)
Theorem content_type_on_every_request self http_verb url query_params body_params
    headers w :
  ∃ req,
    wire (_perform_http_request self http_verb url query_params body_params
            headers w).2 = wire w ++ [req]
    ∧ req_data req = json_dumps <$> body_params
    ∧ req_headers req !! "Content-Type" = Some "application/json;charset=utf-8".
Proof.
  rewrite perform_http_request_wire. eexists. split; [done|]. simpl.
  split; [done|]. apply lookup_insert_eq.
Qed.

(** *** Sessions *)

(** C2.  Where the client has no running session of its own (none, or a
    closed one), the call creates one session, configured from the client,
    sends its request on it, and leaves it closed: in the world the call
    ends in, whether it returns or raises, the store is the one it started
    from followed by that session, closed. *)
Theorem own_session_closed_on_every_exit self http_verb url query_params
    body_params headers w out w' :
  running (heap w) (session self) = false →
  _perform_http_request self http_verb url query_params body_params headers w
    = (out, w') →
  heap w' = heap w ++ [{| closed := true; session_timeout := timeout self;
                          session_auth := auth self;
                          session_trust_env := trust_env_in_session self |}]
  ∧ ∃ req, wire w' = wire w ++ [req] ∧ req_session req = length (heap w).
Proof.
  intros Hrun. rewrite perform_http_request_run. intros [= _ <-]. simpl.
  unfold heap_after. rewrite Hrun. split; [done|].
  eexists. split; [done|]. simpl. unfold session_used.
  destruct (session self); [by rewrite Hrun | done].
Qed.

(** C8.  Where the client holds a session that is open, the request goes
    out on that session and the call closes nothing and creates nothing:
    the store it ends in, whether it returns or raises, is the store it
    started from. *)
Theorem borrowed_session_left_open self http_verb url query_params body_params
    headers w r s out w' :
  session self = Some r →
  heap w !! r = Some s →
  closed s = false →
  _perform_http_request self http_verb url query_params body_params headers w
    = (out, w') →
  heap w' = heap w
  ∧ heap w' !! r = Some s
  ∧ ∃ req, wire w' = wire w ++ [req] ∧ req_session req = r.
Proof.
  intros Hself Hr Hopen. rewrite perform_http_request_run. intros [= _ <-]. simpl.
  assert (running (heap w) (session self) = true) as Hrun.
  { rewrite Hself. simpl. rewrite Hr. simpl. by rewrite Hopen. }
  unfold heap_after. rewrite Hrun. repeat split; try done.
  eexists. split; [done|]. simpl. unfold session_used.
  rewrite Hself. rewrite Hself in Hrun. by rewrite Hrun.
Qed.

(** *** Reading the body *)

(** C3 (as the code has it).  Where reading the body of the response
    raises a JSON decode error, the call raises a [SlackApiError] whose
    message is ["Failed to parse the response body: "] followed by the
    text of that error, and which carries the raw response; no envelope is
    returned. *)
Theorem json_decode_error_is_wrapped self http_verb url query_params body_params
    headers w req res msg :
  last (wire (_perform_http_request self http_verb url query_params body_params
                headers w).2) = Some req →
  transport req = inr res →
  res_text res = inl (JSONDecodeError msg) →
  (_perform_http_request self http_verb url query_params body_params headers w).1
  = Raise (SlackApiError ("Failed to parse the response body: " +:+ msg) res).
Proof.
  rewrite perform_http_request_run. simpl. rewrite last_snoc.
  intros [= <-] Hres Htext. unfold answer. by rewrite Hres, Htext.
Qed.

(** C5.  Where the content type of the response keeps its body from being
    read as text, the call raises nothing: it returns an envelope whose
    raw body is the empty dictionary it started from, and the condition
    shows only in the log, as a record of level [DEBUG] like every record
    the call adds. *)
Theorem unreadable_body_gives_empty_envelope self http_verb target query_params
    body_params request_headers w req res :
  last (wire (_perform_http_request self http_verb target query_params
                body_params request_headers w).2) = Some req →
  transport req = inr res →
  res_text res = inl ContentTypeError →
  ∃ resp before after,
    (_perform_http_request self http_verb target query_params body_params
       request_headers w).1 = Return resp
    ∧ raw_body resp = PyDict ∅
    ∧ body resp = ∅
    ∧ url resp = target
    ∧ status_code resp = status res
    ∧ headers resp = res_headers res
    ∧ log (_perform_http_request self http_verb target query_params body_params
             request_headers w).2
      = log w ++ before
          ++ [{| levelno := DEBUG; message := NoResponseData target |}] ++ after
    ∧ Forall (λ r, levelno r = DEBUG) (before ++ after).
Proof.
  rewrite perform_http_request_run. simpl. rewrite last_snoc.
  intros [= <-] Hres Htext. unfold answer. rewrite Hres, Htext. simpl.
  eexists _, (sending_log self target query_params body_params request_headers), [_].
  repeat split; try done.
  unfold sending_log. case_bool_decide; by repeat constructor.
Qed.

(** *** The debug log *)

Lemma headers_for_logging_lookup (h : gmap string string) k :
  headers_for_logging h !! k = redact k <$> h !! k.
Proof.
  unfold headers_for_logging. rewrite map_lookup_imap.
  by destruct (h !! k).
Qed.

(** Two header maps with the same names, and the same values but for the
    headers named authorization, are logged alike. *)
Lemma headers_for_logging_hides_authorization (h1 h2 : gmap string string) :
  dom h1 = dom h2 →
  (∀ k, lower k ≠ "authorization" → h1 !! k = h2 !! k) →
  headers_for_logging h1 = headers_for_logging h2.
Proof.
  intros Hdom Hlow. apply map_eq. intros k.
  rewrite !headers_for_logging_lookup. unfold redact.
  case_decide as Hk; [|by rewrite (Hlow k)].
  assert (is_Some (h1 !! k) ↔ is_Some (h2 !! k)) as Hsome.
  { by rewrite <-!elem_of_dom, Hdom. }
  destruct (h1 !! k) as [v1|], (h2 !! k) as [v2|]; simpl; try done.
  - destruct Hsome as [Hsome _]. by destruct Hsome.
  - destruct Hsome as [_ Hsome]. by destruct Hsome.
Qed.

(** C6.  At debug verbosity the call first logs its request, and the
    headers in that record are those of the request with the value of
    every header whose lower-cased name is [authorization] replaced by
    [(redacted)], the other values as they are.  Two calls whose headers
    differ only in the values of such headers log the same record: the
    token does not show. *)
Theorem debug_log_redacts_authorization self http_verb url query_params
    body_params (h1 h2 : gmap string string) w1 w2 :
  level (logger self) ≤ DEBUG →
  dom h1 = dom h2 →
  (∀ k, lower k ≠ "authorization" → h1 !! k = h2 !! k) →
  ∃ logged rest1 rest2,
    log (_perform_http_request self http_verb url query_params body_params h1 w1).2
    = log w1
        ++ {| levelno := DEBUG;
              message := SendingRequest url query_params
                           (json_dumps <$> body_params) logged |} :: rest1
    ∧ log (_perform_http_request self http_verb url query_params body_params h2 w2).2
      = log w2
          ++ {| levelno := DEBUG;
                message := SendingRequest url query_params
                             (json_dumps <$> body_params) logged |} :: rest2
    ∧ ∀ k, logged !! k
           = (λ v, if decide (lower k = "authorization") then "(redacted)" else v)
               <$> (<["Content-Type" := "application/json;charset=utf-8"]> h1) !! k.
Proof.
  intros Hlevel Hdom Hlow. rewrite !perform_http_request_run. simpl.
  unfold sending_log. rewrite bool_decide_eq_true_2 by done. simpl.
  eexists _, _, _. split; [done|]. split.
  - unfold debug_record, CONTENT_TYPE_JSON.
    rewrite (headers_for_logging_hides_authorization
               (<["Content-Type" := "application/json;charset=utf-8"]> h2)
               (<["Content-Type" := "application/json;charset=utf-8"]> h1));
      [done| |].
    + by rewrite !dom_insert_L, Hdom.
    + intros k Hk. rewrite !lookup_insert. case_decide; [done|].
      symmetry. by apply Hlow.
  - intros k. apply headers_for_logging_lookup.
Qed.

(** ** Further properties of the code *)

(** *** Outcomes of [_perform_http_request] *)

(** X1.  An exception of [session.request] (no connection, a timeout)
    leaves the call as it is: it is not wrapped, no envelope is built and
    no response is logged. *)
Theorem transport_error_propagates self http_verb url query_params body_params
    headers w req e :
  last (wire (_perform_http_request self http_verb url query_params body_params
                headers w).2) = Some req →
  transport req = inl e →
  (_perform_http_request self http_verb url query_params body_params headers w).1
  = Raise (LibraryError e)
  ∧ log (_perform_http_request self http_verb url query_params body_params
           headers w).2
    = log w ++ sending_log self url query_params body_params headers.
Proof.
  rewrite perform_http_request_run. simpl. rewrite last_snoc.
  intros [= <-] He. unfold answer. rewrite He. simpl.
  by rewrite app_nil_r.
Qed.

(** X2.  An exception of [res.text()] that is neither a content-type
    error nor a JSON decode error passes through the [try] unchanged. *)
Theorem read_error_propagates self http_verb url query_params body_params
    headers w req res e :
  last (wire (_perform_http_request self http_verb url query_params body_params
                headers w).2) = Some req →
  transport req = inr res →
  res_text res = inl e →
  e ≠ ContentTypeError →
  (∀ msg, e ≠ JSONDecodeError msg) →
  (_perform_http_request self http_verb url query_params body_params headers w).1
  = Raise (LibraryError e).
Proof.
  rewrite perform_http_request_run. simpl. rewrite last_snoc.
  intros [= <-] Hres Htext Hct Hjson. unfold answer. rewrite Hres, Htext.
  destruct e; try done. by destruct (Hjson msg).
Qed.

(** X3.  A [SlackApiError] comes from nowhere but the second handler: the
    read of the body raised a JSON decode error, the error carries the
    response that was being read, and its message is the prefix followed
    by the text of the decode error. *)
Theorem slack_api_error_only_from_json_decode self http_verb url query_params
    body_params headers w message response :
  (_perform_http_request self http_verb url query_params body_params headers w).1
  = Raise (SlackApiError message response) →
  ∃ req msg,
    last (wire (_perform_http_request self http_verb url query_params
                  body_params headers w).2) = Some req
    ∧ transport req = inr response
    ∧ res_text response = inl (JSONDecodeError msg)
    ∧ message = "Failed to parse the response body: " +:+ msg.
Proof.
  rewrite perform_http_request_run. simpl. rewrite last_snoc. unfold answer.
  match goal with |- context [transport ?q] =>
    destruct (transport q) as [e|res] eqn:Hres end; [done|].
  destruct (res_text res) as [[]|t] eqn:Htext; simpl; try done.
  intros [= <- <-]. by eexists _, _.
Qed.

(** X4.  The call returns an envelope exactly when the transport gave a
    response whose body was read as text or could not be read for its
    content type; in every other case it raises. *)
Theorem returns_iff_body_read_or_unreadable self http_verb url query_params
    body_params headers w :
  ∃ req,
    wire (_perform_http_request self http_verb url query_params body_params
            headers w).2 = wire w ++ [req]
    ∧ ((∃ resp,
          (_perform_http_request self http_verb url query_params body_params
             headers w).1 = Return resp)
       ↔ ∃ res, transport req = inr res
           ∧ (res_text res = inl ContentTypeError ∨ ∃ s, res_text res = inr s)).
Proof.
  rewrite perform_http_request_run. simpl. eexists. split; [done|].
  unfold answer.
  match goal with |- context [transport ?q] =>
    destruct (transport q) as [e|res] eqn:Hres end.
  - split; [by intros [? ?] | by intros (? & ? & _)].
  - destruct (res_text res) as [[]|t] eqn:Htext; simpl.
    + split; [|by eauto]. intros _. exists res. split; [done|by left].
    + split; [by intros [? ?]|]. intros (r & [= <-] & [?|[? ?]]); congruence.
    + split; [by intros [? ?]|]. intros (r & [= <-] & [?|[? ?]]); congruence.
    + split; [by intros [? ?]|]. intros (r & [= <-] & [?|[? ?]]); congruence.
    + split; [by intros [? ?]|]. intros (r & [= <-] & [?|[? ?]]); congruence.
    + split; [|by eauto]. intros _. exists res. split; [done|]. right. by eexists.
Qed.

(** *** The log and the request *)

(** X5.  The request is logged once when the level of the logger is at
    most [DEBUG] (the level 0 of an unconfigured logger included), and
    not at all above it. *)
Theorem request_logged_only_at_debug self http_verb url query_params body_params
    headers w :
  ∃ added,
    log (_perform_http_request self http_verb url query_params body_params
           headers w).2 = log w ++ added
    ∧ length (filter (λ r, is_sending_request r) added)
      = if bool_decide (level (logger self) ≤ DEBUG) then 1%nat else 0%nat.
Proof.
  rewrite perform_http_request_run. simpl. eexists. split; [done|].
  rewrite filter_app, length_app.
  assert (length (filter (λ r, is_sending_request r)
                    (answer url (transport (request_sent self http_verb url
                       query_params body_params headers w))).2) = 0%nat) as ->.
  { unfold answer. destruct (transport _) as [e|res]; [done|].
    by destruct (res_text res) as [[]|t]. }
  unfold sending_log. by case_bool_decide.
Qed.

(** X6.  At debug verbosity the record of the request shows what goes on
    the wire: its URL, its query parameters and its serialised body are
    those of the request sent, and its headers have the names of the
    headers sent. *)
Theorem logged_request_is_the_request_sent self http_verb url query_params
    body_params headers w :
  level (logger self) ≤ DEBUG →
  ∃ req logged rest,
    wire (_perform_http_request self http_verb url query_params body_params
            headers w).2 = wire w ++ [req]
    ∧ log (_perform_http_request self http_verb url query_params body_params
             headers w).2
      = log w
          ++ {| levelno := DEBUG;
                message := SendingRequest (req_url req) (req_params req)
                             (req_data req) logged |} :: rest
    ∧ dom logged = dom (req_headers req).
Proof.
  intros Hlevel. rewrite perform_http_request_run. simpl.
  unfold sending_log. rewrite bool_decide_eq_true_2 by done.
  eexists _, _, _. split; [done|]. split; [done|]. simpl.
  unfold headers_for_logging. apply set_eq. intros k.
  rewrite !elem_of_dom, map_lookup_imap.
  destruct (_ !! k); simpl; by rewrite <-?not_eq_None_Some.
Qed.

(** X7.  The headers handed to the call go out as they are, but for the
    one of the exact name [Content-Type]: a header of that name is
    replaced, one that differs from it in case is kept beside it. *)
Theorem headers_sent_but_content_type_unchanged self http_verb url query_params
    body_params (request_headers : gmap string string) w :
  ∃ req,
    wire (_perform_http_request self http_verb url query_params body_params
            request_headers w).2 = wire w ++ [req]
    ∧ dom (req_headers req) = {["Content-Type"]} ∪ dom request_headers
    ∧ ∀ k, k ≠ "Content-Type" → req_headers req !! k = request_headers !! k.
Proof.
  rewrite perform_http_request_wire. eexists. split; [done|]. simpl. split.
  - apply dom_insert_L.
  - intros k Hk. by rewrite lookup_insert_ne.
Qed.

(** X8.  [api_call] hands the transport its verb and its query parameters
    unchanged, the TLS context and the proxy of the client, and the
    headers built from the token, the default headers and the headers of
    the call, with the content type set on them. *)
Theorem api_call_request self http_verb path query_params body_params
    additional_headers w :
  ∃ req,
    wire (api_call self http_verb path query_params body_params
            additional_headers w).2 = wire w ++ [req]
    ∧ req_verb req = http_verb
    ∧ req_params req = query_params
    ∧ req_ssl req = ssl self
    ∧ req_proxy req = proxy self
    ∧ req_headers req
      = <["Content-Type" := "application/json;charset=utf-8"]>
          (_build_request_headers (token self) (default_headers self)
             additional_headers).
Proof. rewrite api_call_wire. eexists. by split. Qed.

(** *** Sessions *)

(** X9.  A call only adds to the world: the sessions, the log and the
    wire it found are a prefix of those it leaves, the wire is longer by
    one request, and a session of the final store is one that was there
    before, as it was, or the one the call made, which is closed.  No
    call leaves behind an open session that it created. *)
Theorem call_only_appends self http_verb url query_params body_params
    request_headers w :
  let w' := (_perform_http_request self http_verb url query_params body_params
               request_headers w).2 in
  heap w `prefix_of` heap w'
  ∧ log w `prefix_of` log w'
  ∧ wire w `prefix_of` wire w'
  ∧ length (wire w') = S (length (wire w))
  ∧ ∀ r s, heap w' !! r = Some s →
      heap w !! r = Some s ∨ (r = length (heap w) ∧ closed s = true).
Proof.
  intros w'. subst w'. rewrite perform_http_request_run. simpl.
  split; [|split; [|split; [|split]]].
  - unfold heap_after. destruct (running _ _); [done|]. by apply prefix_app_r.
  - by apply prefix_app_r.
  - by apply prefix_app_r.
  - rewrite length_app. simpl. lia.
  - intros r s. unfold heap_after. destruct (running _ _); [by left|].
    intros Hr. apply lookup_app_Some in Hr as [Hr|[Hge Hr]]; [by left|].
    right. apply list_lookup_singleton_Some in Hr as [Hz <-].
    split; [lia|done].
Qed.

(** X10.  A client without a running session of its own never reuses a
    session from one call to the next: two calls in a row go out on two
    different new sessions, and both are closed afterwards. *)
Theorem consecutive_calls_use_fresh_sessions self verb1 url1 params1 body1 headers1
    verb2 url2 params2 body2 headers2 w :
  running (heap w) (session self) = false →
  let w1 := (_perform_http_request self verb1 url1 params1 body1 headers1 w).2 in
  let w2 := (_perform_http_request self verb2 url2 params2 body2 headers2 w1).2 in
  ∃ s req1 req2,
    closed s = true
    ∧ heap w2 = heap w ++ [s; s]
    ∧ wire w2 = wire w ++ [req1; req2]
    ∧ req_session req1 = length (heap w)
    ∧ req_session req2 = S (length (heap w)).
Proof.
  intros Hrun w1 w2.
  assert (heap w1 = heap w ++ [new_session self true]) as Hheap1.
  { subst w1. rewrite perform_http_request_run. simpl.
    unfold heap_after. by rewrite Hrun. }
  assert (running (heap w1) (session self) = false) as Hrun1.
  { rewrite Hheap1. destruct (session self) as [r|]; [|done]. simpl in *.
    destruct (decide (r < length (heap w))%nat) as [Hlt|Hge].
    - by rewrite lookup_app_l.
    - rewrite lookup_app_r by lia.
      by destruct (r - length (heap w))%nat as [|[|?]]. }
  assert (∀ v u p b h x, running (heap x) (session self) = false →
            req_session (request_sent self v u p b h x) = length (heap x)) as Hsent.
  { intros v u p b h x Hx. simpl. unfold session_used.
    destruct (session self); [by rewrite Hx | done]. }
  exists (new_session self true), (request_sent self verb1 url1 params1 body1 headers1 w),
    (request_sent self verb2 url2 params2 body2 headers2 w1).
  split; [done|]. split; [|split; [|split]].
  - subst w2. rewrite perform_http_request_run. simpl.
    unfold heap_after. rewrite Hrun1, Hheap1. by rewrite <-app_assoc.
  - subst w2. rewrite perform_http_request_run. simpl.
    subst w1. rewrite perform_http_request_wire. by rewrite <-app_assoc.
  - by apply Hsent.
  - rewrite Hsent by done. rewrite Hheap1, length_app. simpl. lia.
Qed.

(** X11.  A session of the client's that is closed is left alone: it is
    not reopened, and the request does not go out on it. *)
Theorem closed_session_is_not_used self http_verb url query_params body_params
    request_headers w r s :
  session self = Some r →
  heap w !! r = Some s →
  closed s = true →
  heap (_perform_http_request self http_verb url query_params body_params
          request_headers w).2 !! r = Some s
  ∧ ∃ req,
      wire (_perform_http_request self http_verb url query_params body_params
              request_headers w).2 = wire w ++ [req]
      ∧ req_session req ≠ r.
Proof.
  intros Hself Hr Hclosed. rewrite perform_http_request_run. simpl.
  assert (running (heap w) (session self) = false) as Hrun.
  { rewrite Hself. simpl. rewrite Hr. simpl. by rewrite Hclosed. }
  unfold heap_after. rewrite Hrun. split.
  - by apply lookup_app_l_Some.
  - eexists. split; [done|]. simpl. unfold session_used.
    rewrite Hself. rewrite Hself in Hrun. rewrite Hrun.
    apply lookup_lt_Some in Hr. lia.
Qed.

(** *** The constructor and the query parameters of [logs] *)

(** X12.  The default headers of a new client hold the computed user agent
    under [User-Agent], whatever the caller gave under that name, and the
    caller's other default headers as given; without default headers they
    hold the user agent alone. *)
Theorem init_default_headers tok tmo tls px bu sess trust au
    (given : option (gmap string string)) ua_prefix ua_suffix lg :
  let self :=
    __init__ tok tmo tls px bu sess trust au given ua_prefix ua_suffix lg in
  default_headers self !! "User-Agent"
  = Some (get_user_agent ua_prefix ua_suffix)
  ∧ (∀ k, k ≠ "User-Agent" → default_headers self !! k = given ≫= (.!! k))
  ∧ (given = None ∨ given = Some ∅ →
     default_headers self
     = {[ "User-Agent" := get_user_agent ua_prefix ua_suffix ]}).
Proof.
  intros self. subst self. unfold __init__. simpl. split; [|split].
  - apply lookup_insert_eq.
  - intros k Hk. rewrite lookup_insert_ne by done. by destruct given.
  - by intros [->| ->].
Qed.

(** X13.  [logs] invents no parameter: a key it transmits is one of the
    six named filters or a key of the additional parameters. *)
Theorem logs_query_params_keys latest oldest limit action actor entity
    (additional : option (gmap string pyval)) :
  dom (logs_query_params latest oldest limit action actor entity additional)
  ⊆ (list_to_set named_filter_keys : gset string) ∪ dom (default ∅ additional).
Proof.
  intros k. rewrite elem_of_union, !elem_of_dom, elem_of_list_to_set.
  rewrite logs_query_params_lookup. unfold transmitted.
  destruct additional as [a|]; simpl.
  - destruct (a !! k) as [v|] eqn:Ha; [by right; eauto|].
    intros Hk. left. revert Hk. unfold named_filter, named_filter_keys.
    repeat case_decide; subst; set_solver.
  - intros Hk. left. revert Hk. unfold named_filter, named_filter_keys.
    repeat case_decide; subst; set_solver.
Qed.

(** X14.  The named filters are the additional parameters of the same
    names: a call of [logs] transmits what the call without named filters
    does whose additional parameters are the given ones over the six named
    values. *)
Theorem named_filters_as_additional latest oldest limit action actor entity
    (additional : option (gmap string pyval)) :
  logs_query_params latest oldest limit action actor entity additional
  = logs_query_params None None None None None None
      (Some (default ∅ additional
             ∪ {[ "latest" := of_opt_int latest; "oldest" := of_opt_int oldest;
                  "limit" := of_opt_int limit; "action" := of_opt_str action;
                  "actor" := of_opt_str actor; "entity" := of_opt_str entity ]})).
Proof.
  apply map_eq. intros k. rewrite !logs_query_params_lookup.
  unfold transmitted. simpl. rewrite lookup_union.
  assert (additional ≫= (.!! k) = default ∅ additional !! k) as ->.
  { by destruct additional. }
  destruct (default ∅ additional !! k) as [v|]; simpl.
  - by rewrite union_Some_l.
  - rewrite (left_id_L None (∪)).
    rewrite <-named_literal_lookup.
    match goal with |- _ = match ?o with _ => _ end => destruct o as [v|] end;
      simpl; [done|].
    unfold named_filter. by repeat case_decide.
Qed.

Lemma logs_query_params_no_filters (m : gmap string pyval) k :
  logs_query_params None None None None None None (Some m) !! k
  = m !! k ≫= (λ v, if decide (v = PyNone) then None else Some v).
Proof.
  rewrite logs_query_params_lookup. unfold transmitted. simpl.
  destruct (m !! k) as [v|]; simpl; [done|].
  unfold named_filter. by repeat case_decide.
Qed.

(** X16.  Without named filters, additional parameters none of which is
    null are transmitted as they are, as [schemas] and [actions] transmit
    theirs. *)
Theorem logs_passes_non_null_additional (m : gmap string pyval) :
  (∀ k, m !! k ≠ Some PyNone) →
  logs_query_params None None None None None None (Some m) = m.
Proof.
  intros Hm. apply map_eq. intros k. rewrite logs_query_params_no_filters.
  destruct (m !! k) as [v|] eqn:Hk; simpl; [|done].
  case_decide as Hv; [|done]. subst v. by destruct (Hm k).
Qed.

(** X17.  What [logs] transmits is stable: given back as the additional
    parameters of a call without named filters, it is transmitted
    unchanged. *)
Theorem logs_query_params_stable latest oldest limit action actor entity
    (additional : option (gmap string pyval)) :
  logs_query_params None None None None None None
    (Some (logs_query_params latest oldest limit action actor entity additional))
  = logs_query_params latest oldest limit action actor entity additional.
Proof.
  apply map_eq. intros k. rewrite logs_query_params_no_filters.
  destruct (logs_query_params latest oldest limit action actor entity additional
              !! k) as [v|] eqn:Hk; simpl; [|done].
  case_decide as Hv; [|done]. subst v. exfalso. revert Hk.
  unfold logs_query_params. rewrite filter_not_none_lookup.
  match goal with |- ?o ≫= _ = _ → _ => destruct o as [u|] end; simpl; [|done].
  case_decide; [done|]. by intros [= ->].
Qed.

(** *** The headers of the log *)

(** X15.  Redaction keeps the names of the headers, changes nothing in a
    map without a header named authorization, and is idempotent. *)
Theorem headers_for_logging_idempotent (h : gmap string string) :
  dom (headers_for_logging h) = dom h
  ∧ headers_for_logging (headers_for_logging h) = headers_for_logging h
  ∧ ((∀ k, is_Some (h !! k) → lower k ≠ "authorization") →
     headers_for_logging h = h).
Proof.
  split; [|split].
  - apply set_eq. intros k. rewrite !elem_of_dom, headers_for_logging_lookup.
    by rewrite fmap_is_Some.
  - apply map_eq. intros k. rewrite !headers_for_logging_lookup.
    destruct (h !! k) as [v|]; simpl; [|done]. unfold redact.
    by case_decide.
  - intros Hno. apply map_eq. intros k. rewrite headers_for_logging_lookup.
    destruct (h !! k) as [v|] eqn:Hk; simpl; [|done]. unfold redact.
    rewrite decide_False; [done|]. apply Hno. by rewrite Hk.
Qed.

End client.

(** * Examples

    The theorems at work in the runtime of [Sample]. *)

(** A client without a session, a network that cannot be reached: the
    call raises, and the session it made is closed. *)
Lemma own_session_closed_on_every_exit_witness :
  let self := Sample.client Sample.warning_logger None in
  let run :=
    _perform_http_request Sample.json_dumps Sample.json_loads Sample.unreachable
      self "GET" "https://api.slack.com/audit/v1/logs" None None ∅
      Sample.empty_world in
  run.1 = Raise (LibraryError (ClientError "Cannot connect to host"))
  ∧ running (heap Sample.empty_world) (session self) = false
  ∧ heap run.2
    = [{| closed := true; session_timeout := 30; session_auth := None;
          session_trust_env := false |}]
  ∧ ∃ req, wire run.2 = [req] ∧ req_session req = 0%nat.
Proof.
  intros self run. split; [reflexivity|]. split; [reflexivity|].
  apply (own_session_closed_on_every_exit Sample.json_dumps Sample.json_loads
           Sample.unreachable self "GET" "https://api.slack.com/audit/v1/logs"
           None None ∅ Sample.empty_world run.1 run.2);
    reflexivity.
Defined.

(** A client that borrows the open session 0: the request goes out on it
    and it stays open. *)
Lemma borrowed_session_left_open_witness :
  let self := Sample.client Sample.warning_logger (Some 0%nat) in
  let w := Sample.world_with (Sample.a_session false) in
  let run :=
    _perform_http_request Sample.json_dumps Sample.json_loads
      (Sample.respond 200 ∅ (inr "{}"))
      self "GET" "https://api.slack.com/audit/v1/logs" None None ∅ w in
  heap run.2 = heap w
  ∧ heap run.2 !! 0%nat = Some (Sample.a_session false)
  ∧ ∃ req, wire run.2 = wire w ++ [req] ∧ req_session req = 0%nat.
Proof.
  intros self w run.
  apply (borrowed_session_left_open Sample.json_dumps Sample.json_loads
           (Sample.respond 200 ∅ (inr "{}")) self "GET"
           "https://api.slack.com/audit/v1/logs" None None ∅ w 0%nat
           (Sample.a_session false) run.1 run.2);
    reflexivity.
Defined.

(** A response whose read raises a JSON decode error. *)
Lemma json_decode_error_is_wrapped_witness :
  let res := {| status := 200; res_headers := ∅;
                res_text := inl (JSONDecodeError "Expecting value: line 1 column 1 (char 0)") |} in
  (_perform_http_request Sample.json_dumps Sample.json_loads (λ _, inr res)
     (Sample.client Sample.warning_logger None) "GET"
     "https://api.slack.com/audit/v1/logs" None None ∅ Sample.empty_world).1
  = Raise (SlackApiError
             "Failed to parse the response body: Expecting value: line 1 column 1 (char 0)"
             res).
Proof.
  intros res.
  eapply (json_decode_error_is_wrapped Sample.json_dumps Sample.json_loads
            (λ _, inr res) (Sample.client Sample.warning_logger None) "GET"
            "https://api.slack.com/audit/v1/logs" None None ∅ Sample.empty_world
            _ res "Expecting value: line 1 column 1 (char 0)");
    reflexivity.
Defined.

(** A response whose content type keeps its body from being read. *)
Lemma unreadable_body_gives_empty_envelope_witness :
  let res := {| status := 204; res_headers := {[ "Content-Type" := "image/png" ]};
                res_text := inl ContentTypeError |} in
  let target := "https://api.slack.com/audit/v1/logs" in
  let run :=
    _perform_http_request Sample.json_dumps Sample.json_loads (λ _, inr res)
      (Sample.client Sample.warning_logger None) "GET" target None None ∅
      Sample.empty_world in
  ∃ resp before after,
    run.1 = Return resp
    ∧ raw_body resp = PyDict ∅
    ∧ body resp = ∅
    ∧ url resp = target
    ∧ status_code resp = 204
    ∧ headers resp = {[ "Content-Type" := "image/png" ]}
    ∧ log run.2
      = [] ++ before
          ++ [{| levelno := DEBUG; message := NoResponseData target |}] ++ after
    ∧ Forall (λ r, levelno r = DEBUG) (before ++ after).
Proof.
  intros res target run.
  eapply (unreadable_body_gives_empty_envelope Sample.json_dumps Sample.json_loads
            (λ _, inr res) (Sample.client Sample.warning_logger None) "GET" target
            None None ∅ Sample.empty_world _ res);
    reflexivity.
Defined.

(** Two calls that differ in the token only log the same request. *)
Lemma debug_log_redacts_authorization_witness :
  let h t : gmap string string :=
    <["Authorization" := "Bearer " +:+ t]> {[ "User-Agent" := "Python/3.9" ]} in
  let self := Sample.client Sample.debug_logger None in
  let run t :=
    _perform_http_request Sample.json_dumps Sample.json_loads Sample.unreachable
      self "GET" "https://api.slack.com/audit/v1/logs" None None (h t)
      Sample.empty_world in
  ∃ logged rest1 rest2,
    log (run "xoxp-1234").2
    = [] ++ {| levelno := DEBUG;
               message := SendingRequest "https://api.slack.com/audit/v1/logs"
                            None None logged |} :: rest1
    ∧ log (run "xoxp-5678").2
      = [] ++ {| levelno := DEBUG;
                 message := SendingRequest "https://api.slack.com/audit/v1/logs"
                              None None logged |} :: rest2
    ∧ ∀ k, logged !! k
           = (λ v, if decide (lower k = "authorization") then "(redacted)" else v)
               <$> (<["Content-Type" := "application/json;charset=utf-8"]>
                      (h "xoxp-1234")) !! k.
Proof.
  intros h self run.
  apply (debug_log_redacts_authorization Sample.json_dumps Sample.json_loads
           Sample.unreachable self "GET" "https://api.slack.com/audit/v1/logs"
           None None (h "xoxp-1234") (h "xoxp-5678")
           Sample.empty_world Sample.empty_world).
  - by vm_compute.
  - unfold h. by rewrite !dom_insert_L.
  - intros k Hk. unfold h. destruct (decide (k = "Authorization")) as [->|Hne].
    + by destruct Hk.
    + by rewrite !lookup_insert_ne.
Defined.

(** [latest] is given and [additional_query_params] maps it to null. *)
Lemma logs_null_additional_cancels_named_witness :
  "latest" ∈ named_filter_keys
  ∧ ({[ "latest" := PyNone ]} : gmap string pyval) !! "latest" = Some PyNone
  ∧ ∃ req query_params,
      wire (logs Sample.json_dumps Sample.json_loads
              (Sample.respond 200 ∅ (inr "{}")) Sample._build_request_headers
              (Sample.client Sample.warning_logger None)
              (Some 1700000000) None (Some 10) None None None
              (Some {[ "latest" := PyNone ]}) None Sample.empty_world).2
      = wire Sample.empty_world ++ [req]
      ∧ req_params req = Some query_params
      ∧ query_params !! "latest" = None.
Proof.
  assert ("latest" ∈ named_filter_keys) as Hk by apply list_elem_of_here.
  split; [exact Hk|]. split; [reflexivity|].
  apply (logs_null_additional_cancels_named Sample.json_dumps Sample.json_loads
           (Sample.respond 200 ∅ (inr "{}")) Sample._build_request_headers
           (Sample.client Sample.warning_logger None)
           (Some 1700000000) None (Some 10) None None None
           {[ "latest" := PyNone ]} None Sample.empty_world "latest" Hk).
  reflexivity.
Defined.

(** C3 as it was stated does not hold: a body that is read as text is not
    decoded by the call.  Here the server answers with a page of HTML,
    which is no JSON; the call returns its envelope, the page as raw
    body. *)
Lemma non_json_text_is_returned :
  Sample.json_loads "<html>Bad Gateway</html>" = None
  ∧ (api_call Sample.json_dumps Sample.json_loads
       (Sample.respond 502 {[ "Content-Type" := "text/html" ]}
          (inr "<html>Bad Gateway</html>"))
       Sample._build_request_headers (Sample.client Sample.warning_logger None)
       "GET" "logs" None None None Sample.empty_world).1
    = Return {| url := "https://api.slack.com/audit/v1/logs"; status_code := 502;
                raw_body := PyStr "<html>Bad Gateway</html>"; body := ∅;
                headers := {[ "Content-Type" := "text/html" ]} |}.
Proof. split; by vm_compute. Qed.

(** C4 as it was stated does not hold: [schemas] sends no body, and its
    request carries the JSON content type all the same. *)
Lemma content_type_without_body :
  ∃ req,
    wire (schemas Sample.json_dumps Sample.json_loads
            (Sample.respond 200 ∅ (inr "{}")) Sample._build_request_headers
            (Sample.client Sample.warning_logger None) None None
            Sample.empty_world).2 = [req]
    ∧ req_data req = None
    ∧ req_headers req !! "Content-Type" = Some "application/json;charset=utf-8".
Proof. eexists. split; [by vm_compute|]. split; by vm_compute. Qed.

(** The filters of a call of [logs], the additional parameters replacing
    [limit], adding [cursor] and cancelling [actor]. *)
Example logs_query_params_sample :
  logs_query_params (Some 1700000000) None (Some 10) (Some "user_login")
    (Some "W123") None
    (Some {[ "limit" := PyInt 100; "cursor" := PyStr "abc"; "actor" := PyNone ]})
  = {[ "latest" := PyInt 1700000000; "limit" := PyInt 100;
       "action" := PyStr "user_login"; "cursor" := PyStr "abc" ]}.
Proof. by vm_compute. Qed.

(** [schemas] passes a null-valued parameter on, where [logs] drops it. *)
Example schemas_keeps_null_parameter :
  req_params <$>
    wire (schemas Sample.json_dumps Sample.json_loads
            (Sample.respond 200 ∅ (inr "{}")) Sample._build_request_headers
            (Sample.client Sample.warning_logger None)
            (Some {[ "cursor" := PyNone ]}) None Sample.empty_world).2
  = [Some {[ "cursor" := PyNone ]}].
Proof. by vm_compute. Qed.

(** The header is redacted whatever the case of its name. *)
Example headers_for_logging_sample :
  headers_for_logging
    {[ "AUTHORIZATION" := "Bearer xoxp-1234"; "authorization" := "Bearer xoxp-5678";
       "User-Agent" := "Python/3.9" ]}
  = {[ "AUTHORIZATION" := "(redacted)"; "authorization" := "(redacted)";
       "User-Agent" := "Python/3.9" ]}.
Proof. by vm_compute. Qed.

(** A response of status 200 whose body is the JSON object with the one
    member [entries], an empty list: the raw body is the text, the parsed
    body the mapping. *)
Example entries_envelope :
  let text := "{" +:+ Sample.q +:+ "entries" +:+ Sample.q +:+ ":[]}" in
  (api_call Sample.json_dumps Sample.json_loads
     (Sample.respond 200 ∅ (inr text)) Sample._build_request_headers
     (Sample.client Sample.warning_logger None)
     "GET" "logs" None None None Sample.empty_world).1
  = Return {| url := "https://api.slack.com/audit/v1/logs"; status_code := 200;
              raw_body := PyStr text; body := {[ "entries" := PyList [] ]};
              headers := ∅ |}.
Proof. by vm_compute. Qed.

(** The network cannot be reached: the error of the transport is what
    the call raises. *)
Lemma transport_error_propagates_witness :
  let self := Sample.client Sample.debug_logger None in
  let run :=
    _perform_http_request Sample.json_dumps Sample.json_loads Sample.unreachable
      self "GET" "https://api.slack.com/audit/v1/logs" None None ∅
      Sample.empty_world in
  run.1 = Raise (LibraryError (ClientError "Cannot connect to host"))
  ∧ log run.2
    = log Sample.empty_world
        ++ sending_log Sample.json_dumps self
             "https://api.slack.com/audit/v1/logs" None None ∅.
Proof.
  intros self run.
  eapply (transport_error_propagates Sample.json_dumps Sample.json_loads
            Sample.unreachable self "GET" "https://api.slack.com/audit/v1/logs"
            None None ∅ Sample.empty_world _ (ClientError "Cannot connect to host"));
    reflexivity.
Defined.

(** A body that is not text in the charset of the response. *)
Lemma read_error_propagates_witness :
  (_perform_http_request Sample.json_dumps Sample.json_loads
     (Sample.respond 200 ∅ (inl (UnicodeDecodeError "invalid start byte")))
     (Sample.client Sample.warning_logger None) "GET"
     "https://api.slack.com/audit/v1/logs" None None ∅ Sample.empty_world).1
  = Raise (LibraryError (UnicodeDecodeError "invalid start byte")).
Proof.
  eapply (read_error_propagates Sample.json_dumps Sample.json_loads
            (Sample.respond 200 ∅ (inl (UnicodeDecodeError "invalid start byte")))
            (Sample.client Sample.warning_logger None) "GET"
            "https://api.slack.com/audit/v1/logs" None None ∅ Sample.empty_world
            _ _ (UnicodeDecodeError "invalid start byte"));
    [reflexivity | reflexivity | reflexivity | discriminate | discriminate].
Defined.

(** The [SlackApiError] of a call, traced back to the read that raised. *)
Lemma slack_api_error_only_from_json_decode_witness :
  let res := {| status := 200; res_headers := ∅;
                res_text := inl (JSONDecodeError "Expecting value") |} in
  let run :=
    _perform_http_request Sample.json_dumps Sample.json_loads
      (Sample.respond 200 ∅ (inl (JSONDecodeError "Expecting value")))
      (Sample.client Sample.warning_logger None) "GET"
      "https://api.slack.com/audit/v1/logs" None None ∅ Sample.empty_world in
  ∃ req msg,
    last (wire run.2) = Some req
    ∧ Sample.respond 200 ∅ (inl (JSONDecodeError "Expecting value")) req = inr res
    ∧ res_text res = inl (JSONDecodeError msg)
    ∧ "Failed to parse the response body: Expecting value"
      = "Failed to parse the response body: " +:+ msg.
Proof.
  intros res run.
  apply (slack_api_error_only_from_json_decode Sample.json_dumps Sample.json_loads
           (Sample.respond 200 ∅ (inl (JSONDecodeError "Expecting value")))
           (Sample.client Sample.warning_logger None) "GET"
           "https://api.slack.com/audit/v1/logs" None None ∅ Sample.empty_world
           "Failed to parse the response body: Expecting value" res).
  reflexivity.
Defined.

(** A call with a body, at debug verbosity. *)
Lemma logged_request_is_the_request_sent_witness :
  let run :=
    _perform_http_request Sample.json_dumps Sample.json_loads
      (Sample.respond 200 ∅ (inr "{}"))
      (Sample.client Sample.debug_logger None) "POST"
      "https://api.slack.com/audit/v1/logs" (Some {[ "limit" := PyInt 5 ]})
      (Some {[ "cursor" := PyStr "abc" ]})
      {[ "Authorization" := "Bearer xoxp-1234" ]} Sample.empty_world in
  ∃ req logged rest,
    wire run.2 = wire Sample.empty_world ++ [req]
    ∧ log run.2
      = log Sample.empty_world
          ++ {| levelno := DEBUG;
                message := SendingRequest (req_url req) (req_params req)
                             (req_data req) logged |} :: rest
    ∧ dom logged = dom (req_headers req).
Proof.
  intros run.
  apply (logged_request_is_the_request_sent Sample.json_dumps Sample.json_loads
           (Sample.respond 200 ∅ (inr "{}"))
           (Sample.client Sample.debug_logger None) "POST"
           "https://api.slack.com/audit/v1/logs" (Some {[ "limit" := PyInt 5 ]})
           (Some {[ "cursor" := PyStr "abc" ]})
           {[ "Authorization" := "Bearer xoxp-1234" ]} Sample.empty_world).
  by vm_compute.
Defined.

(** Two calls of a client without a session, the first of which raises. *)
Lemma consecutive_calls_use_fresh_sessions_witness :
  let self := Sample.client Sample.warning_logger None in
  let w1 :=
    (_perform_http_request Sample.json_dumps Sample.json_loads Sample.unreachable
       self "GET" "https://api.slack.com/audit/v1/schemas" None None ∅
       Sample.empty_world).2 in
  let w2 :=
    (_perform_http_request Sample.json_dumps Sample.json_loads Sample.unreachable
       self "GET" "https://api.slack.com/audit/v1/actions" None None ∅ w1).2 in
  ∃ s req1 req2,
    closed s = true
    ∧ heap w2 = heap Sample.empty_world ++ [s; s]
    ∧ wire w2 = wire Sample.empty_world ++ [req1; req2]
    ∧ req_session req1 = length (heap Sample.empty_world)
    ∧ req_session req2 = S (length (heap Sample.empty_world)).
Proof.
  intros self w1 w2.
  apply (consecutive_calls_use_fresh_sessions Sample.json_dumps Sample.json_loads
           Sample.unreachable self
           "GET" "https://api.slack.com/audit/v1/schemas" None None ∅
           "GET" "https://api.slack.com/audit/v1/actions" None None ∅
           Sample.empty_world).
  reflexivity.
Defined.

(** A client whose session 0 is closed. *)
Lemma closed_session_is_not_used_witness :
  let self := Sample.client Sample.warning_logger (Some 0%nat) in
  let w := Sample.world_with (Sample.a_session true) in
  let run :=
    _perform_http_request Sample.json_dumps Sample.json_loads
      (Sample.respond 200 ∅ (inr "{}"))
      self "GET" "https://api.slack.com/audit/v1/logs" None None ∅ w in
  heap run.2 !! 0%nat = Some (Sample.a_session true)
  ∧ ∃ req, wire run.2 = wire w ++ [req] ∧ req_session req ≠ 0%nat.
Proof.
  intros self w run.
  apply (closed_session_is_not_used Sample.json_dumps Sample.json_loads
           (Sample.respond 200 ∅ (inr "{}")) self "GET"
           "https://api.slack.com/audit/v1/logs" None None ∅ w 0%nat
           (Sample.a_session true));
    reflexivity.
Defined.

(** Additional parameters without a null, and no named filter. *)
Lemma logs_passes_non_null_additional_witness :
  logs_query_params None None None None None None
    (Some {[ "cursor" := PyStr "abc"; "limit" := PyInt 100 ]})
  = {[ "cursor" := PyStr "abc"; "limit" := PyInt 100 ]}.
Proof.
  apply (logs_passes_non_null_additional
           {[ "cursor" := PyStr "abc"; "limit" := PyInt 100 ]}).
  intros k. rewrite lookup_insert. case_decide; [done|].
  rewrite lookup_singleton. by case_decide.
Defined.
